(** * fenics_adjoint: the annotated [project] call and the backend
      compatibility table

    A shallow embedding of [fenics_adjoint/projection.py] and
    [fenics_adjoint/types/compat.py].  Python values are an inductive type,
    exceptions are an error result, and the module-level state the code
    touches (the annotation flag, the working tape, the stores of mutable
    objects) is threaded explicitly through a state-and-error monad.  The
    numerical backend is a record of native operations. *)

From Stdlib Require Import Floats ZArith.
From stdpp Require Import gmap strings list.

Set Warnings "-register-all".

(** ** Backend objects *)

(** A function space.  [fs_index] and [fs_parent] are firedrake's
    [V.index] and [V.parent] ([None] on a root space); [fs_component] is
    what dolfin's [V.component()] answers (empty on a root space). *)
Inductive FunctionSpace : Type :=
| mkFunctionSpace (ident : nat) (index : option nat)
                  (parent : option FunctionSpace) (component : list nat).

Definition fs_ident (V : FunctionSpace) : nat :=
  match V with mkFunctionSpace i _ _ _ => i end.

Definition fs_index (V : FunctionSpace) : option nat :=
  match V with mkFunctionSpace _ i _ _ => i end.

Definition fs_parent (V : FunctionSpace) : option FunctionSpace :=
  match V with mkFunctionSpace _ _ p _ => p end.

Definition fs_component (V : FunctionSpace) : list nat :=
  match V with mkFunctionSpace _ _ _ c => c end.

(** [V == W] on function spaces: structural comparison. *)
Fixpoint space_eqb (V W : FunctionSpace) : bool :=
  match V, W with
  | mkFunctionSpace i idx p c, mkFunctionSpace i' idx' p' c' =>
      bool_decide (i = i') && bool_decide (idx = idx')
      && match p, p' with
         | Some P, Some P' => space_eqb P P'
         | None, None => true
         | _, _ => false
         end
      && bool_decide (c = c')
  end.

(** A backend vector: the coefficient values over all processes. *)
Record Vector : Type := mkVector { vec_values : list float }.

(** A field: its space, its coefficient vector and its sub-functions. *)
Inductive Function : Type :=
| mkFunction (space : FunctionSpace) (vec : Vector) (subs : list Function).

Definition function_space (u : Function) : FunctionSpace :=
  match u with mkFunction V _ _ => V end.

Definition vector (u : Function) : Vector :=
  match u with mkFunction _ x _ => x end.

Definition subfunctions (u : Function) : list Function :=
  match u with mkFunction _ _ l => l end.

(** ** Python values *)

Inductive value : Type :=
| VNone
| VBool (b : bool)
| VInt (n : Z)
| VFloat (x : float)
| VStr (s : string)
| VList (l : list value)
| VArray (a : list float)            (* a process-local numpy array *)
| VVector (x : Vector)
| VFunction (u : Function)
| VFunctionSpace (V : FunctionSpace)
| VMatrix (m : nat)
| VForm (rank : nat) (f : nat)       (* a UFL form of the given arity *)
| VDirichletBC (ref : nat)           (* a reference into the bc store *)
| VObject (o : nat).                 (* any other object *)

Inductive exn : Type :=
| ValueError (msg : string)
| AssertionError
| AttributeError (attr : string)
| IndexError
| TypeError
| BackendError (code : nat).

Inductive result (A : Type) : Type :=
| Ok (a : A)
| Raise (e : exn).
Arguments Ok {A} a.
Arguments Raise {A} e.

#[global] Instance result_ret : MRet result := λ A a, Ok a.
#[global] Instance result_bind : MBind result := λ A B f r,
  match r with
  | Ok a => f a
  | Raise e => Raise e
  end.
#[global] Instance result_fmap : FMap result := λ A B f r,
  match r with
  | Ok a => Ok (f a)
  | Raise e => Raise e
  end.

Definition is_None (v : value) : bool :=
  match v with VNone => true | _ => false end.

(** [bool(v)]: the truth value of an array with more than one element is
    ambiguous and raises. *)
Definition truthy (v : value) : result bool :=
  match v with
  | VNone => Ok false
  | VBool b => Ok b
  | VInt n => Ok (negb (n =? 0)%Z)
  | VFloat x => Ok (negb (PrimFloat.eqb x 0%float))
  | VStr s => Ok (negb (String.eqb s ""))
  | VList l => Ok (negb (bool_decide (length l = 0)))
  | VArray [] => Ok false
  | VArray [x] => Ok (negb (PrimFloat.eqb x 0%float))
  | VArray _ => Raise (ValueError "truth value of an array is ambiguous")
  | _ => Ok true
  end.

(** [l[i]] on a Python sequence. *)
Definition getitem {A} (l : list A) (i : nat) : result A :=
  match l !! i with
  | Some a => Ok a
  | None => Raise IndexError
  end.

(** ** The program state *)

(** [obj.block_variable]: the tape-side handle of an overloaded object. *)
Record BlockVariable : Type := mkBlockVariable { bv_owner : nat }.

(** A recorded operation. *)
Record Block : Type := mkBlock {
  block_source : value;
  block_target : value;
  block_result : nat;
  block_bcs : value;
  block_kwargs : gmap string value;
  block_outputs : list BlockVariable
}.

Record DirichletBC : Type := mkDirichletBC {
  bc_function_space : FunctionSpace;
  bc_value : value;
  bc_sub_domain : value;
  bc_method : value;
  bc_domain_args : list value;
  bc_indices : list nat
}.

(** The state: the annotation flag, the working tape (references to
    blocks, in order), and the stores of the mutable objects: blocks,
    overloaded objects (each wrapping a raw backend value) and boundary
    conditions.  A reference is an index into its store. *)
Record World : Type := mkWorld {
  annotation_enabled : bool;
  working_tape : list nat;
  block_store : list Block;
  overloaded_store : list value;
  bc_store : list DirichletBC
}.

Definition set_annotation_enabled (b : bool) (w : World) : World :=
  mkWorld b (working_tape w) (block_store w) (overloaded_store w) (bc_store w).

Definition set_working_tape (t : list nat) (w : World) : World :=
  mkWorld (annotation_enabled w) t (block_store w) (overloaded_store w) (bc_store w).

Definition set_block_store (s : list Block) (w : World) : World :=
  mkWorld (annotation_enabled w) (working_tape w) s (overloaded_store w) (bc_store w).

Definition set_overloaded_store (s : list value) (w : World) : World :=
  mkWorld (annotation_enabled w) (working_tape w) (block_store w) s (bc_store w).

Definition set_bc_store (s : list DirichletBC) (w : World) : World :=
  mkWorld (annotation_enabled w) (working_tape w) (block_store w) (overloaded_store w) s.

(** State and exceptions: the state survives a raise. *)
Definition M (A : Type) : Type := World → result A * World.

#[global] Instance M_ret : MRet M := λ A a w, (Ok a, w).
#[global] Instance M_bind : MBind M := λ A B f m w,
  match m w with
  | (Ok a, w') => f a w'
  | (Raise e, w') => (Raise e, w')
  end.

Definition lift {A} (r : result A) : M A := λ w, (r, w).
Definition raise {A} (e : exn) : M A := λ w, (Raise e, w).

(** The [with] statement: the manager's exit runs on both ways out of the
    body; an exception of the body is raised again afterwards. *)
Record ContextManager (T : Type) : Type := mkContextManager {
  cm_enter : M T;
  cm_exit : T → M unit
}.
Arguments cm_enter {T} _.
Arguments cm_exit {T} _ _.

Definition py_with {T A} (cm : ContextManager T) (body : M A) : M A := λ w,
  match cm_enter cm w with
  | (Raise e, w1) => (Raise e, w1)
  | (Ok t, w1) =>
      match body w1 with
      | (Ok a, w2) =>
          match cm_exit cm t w2 with
          | (Ok _, w3) => (Ok a, w3)
          | (Raise e, w3) => (Raise e, w3)
          end
      | (Raise e, w2) =>
          match cm_exit cm t w2 with
          | (Ok _, w3) => (Raise e, w3)
          | (Raise e', w3) => (Raise e', w3)
          end
      end
  end.

(** ** The numerical backend

    The [backend] module: its name and the native operations the code
    calls.  [backend_assign Vtarget Vsource f] is
    [FunctionAssigner(Vtarget, Vsource).assign(output, f)] on a fresh
    [output = Function(Vtarget)], answering the coefficients written.
    [backend_legacy_gather] tells whether [GenericVector.gather] has the
    older two-argument signature. *)
Record Backend : Type := mkBackend {
  backend_name : string;
  backend_project : list value → gmap string value → M value;
  backend_assemble : list value → gmap string value → M value;
  backend_assign : FunctionSpace → FunctionSpace → Function → result Vector;
  backend_legacy_gather : bool
}.

(** [backend.__name__ == "firedrake"] *)
Definition is_firedrake (backend : Backend) : bool :=
  String.eqb (backend_name backend) "firedrake".

(** ** types/compat.py *)

(** *** Type identities

    Values carry their kind, so the two branches name the same
    recognisers: [VectorType] is [backend.vector.Vector] or
    [backend.cpp.la.GenericVector], [FunctionType] is [backend.Function]
    or [backend.cpp.Function]. *)
Definition isinstance_Vector (v : value) : bool :=
  match v with VVector _ => true | _ => false end.

Definition isinstance_Function (v : value) : bool :=
  match v with VFunction _ => true | _ => false end.

Definition isinstance_Matrix (v : value) : bool :=
  match v with VMatrix _ => true | _ => false end.

Definition isinstance_FunctionSpace (v : value) : bool :=
  match v with VFunctionSpace _ => true | _ => false end.

Definition MatrixType (backend : Backend) : value → bool :=
  if is_firedrake backend then isinstance_Matrix else isinstance_Matrix.

Definition VectorType (backend : Backend) : value → bool :=
  if is_firedrake backend then isinstance_Vector else isinstance_Vector.

Definition FunctionType (backend : Backend) : value → bool :=
  if is_firedrake backend then isinstance_Function else isinstance_Function.

Definition FunctionSpaceType (backend : Backend) : value → bool :=
  if is_firedrake backend then isinstance_FunctionSpace
  else isinstance_FunctionSpace.

(** [r.sub(i)] *)
Definition sub (r : Function) (i : nat) : result Function :=
  getitem (subfunctions r) i.

(** [for idx in indices: r = r.sub(idx)] *)
Fixpoint follow (r : Function) (indices : list nat) : result Function :=
  match indices with
  | [] => Ok r
  | idx :: rest => r ← sub r idx; follow r rest
  end.

(** *** extract_subfunction *)

(** The firedrake loop [while V.index: r = r.sub(V.index); V = V.parent].
    The test is a truth test: it stops on [None] and on index [0].  When
    the parent is [None] the next test reads [None.index]. *)
Fixpoint extract_subfunction_firedrake (r : Function) (V : FunctionSpace)
  : result Function :=
  match V with
  | mkFunctionSpace _ index parent _ =>
      match index with
      | Some (S _ as i) =>
          match sub r i with
          | Ok r =>
              match parent with
              | Some P => extract_subfunction_firedrake r P
              | None => Raise (AttributeError "index")
              end
          | Raise e => Raise e
          end
      | _ => Ok r
      end
  end.

Definition extract_subfunction_dolfin (u : Function) (V : FunctionSpace)
  : result Function :=
  let component := fs_component V in
  follow u component.

Definition extract_subfunction (backend : Backend) (u : Function)
    (V : FunctionSpace) : result Function :=
  if is_firedrake backend then extract_subfunction_firedrake u V
  else extract_subfunction_dolfin u V.

(** *** create_bc *)

(** [bc.function_space()], [bc.sub_domain] and the like: reading the
    object a reference names. *)
Definition get_bc (bc : nat) : M DirichletBC := λ w,
  match bc_store w !! bc with
  | Some data => (Ok data, w)
  | None => (Raise (AttributeError "function_space"), w)
  end.

(** Constructing a bc: a new object at the end of the store. *)
Definition alloc_bc (data : DirichletBC) : M nat := λ w,
  (Ok (length (bc_store w)), set_bc_store (bc_store w ++ [data]) w).

(** The indices met walking from a space up to its root, innermost
    first. *)
Fixpoint index_chain (V : FunctionSpace) : list nat :=
  match V with
  | mkFunctionSpace _ index parent _ =>
      match index with Some i => [i] | None => [] end
      ++ match parent with Some P => index_chain P | None => [] end
  end.

(** firedrake's [DirichletBC(V, g, sub_domain, method=method)]; the
    constructor keeps the index chain of [V], outermost first, in
    [_indices]. *)
Definition firedrake_DirichletBC (V : FunctionSpace) (g sub_domain method : value)
  : M nat :=
  alloc_bc (mkDirichletBC V g sub_domain method [] (reverse (index_chain V))).

(** dolfin's [DirichletBC(V, g, *domain_args)] *)
Definition dolfin_DirichletBC (V : FunctionSpace) (g : value)
    (domain_args : list value) : M nat :=
  alloc_bc (mkDirichletBC V g (default VNone (domain_args !! 0))
              (default VNone (domain_args !! 1)) domain_args []).

(** dolfin's copy constructor [DirichletBC(bc)] *)
Definition dolfin_DirichletBC_copy (bc : nat) : M nat :=
  data ← get_bc bc; alloc_bc data.

(** dolfin's [bc.homogenize()]: the object's value becomes zero, in place. *)
Definition homogenize (bc : nat) : M unit := λ w,
  match bc_store w !! bc with
  | Some data =>
      (Ok tt,
       set_bc_store
         (<[bc := mkDirichletBC (bc_function_space data) (VFloat 0%float)
                    (bc_sub_domain data) (bc_method data) (bc_domain_args data)
                    (bc_indices data)]>
            (bc_store w)) w)
  | None => (Raise (AttributeError "homogenize"), w)
  end.

Definition create_bc_firedrake (bc : nat) (value homogenize : value) : M nat :=
  if is_None value && is_None homogenize then
    raise (ValueError "No point cloning a bc if you're not changing its values")
  else if negb (is_None value) && negb (is_None homogenize) then
    raise (ValueError "Cannot provide both value and homogenize")
  else
    h ← lift (truthy homogenize);
    let value := if h : bool then VInt 0 else value in
    data ← get_bc bc;
    firedrake_DirichletBC (bc_function_space data) value
      (bc_sub_domain data) (bc_method data).

Definition create_bc_dolfin (bc : nat) (value homogenize_arg : value) : M nat :=
  if is_None value && is_None homogenize_arg then
    raise (ValueError "No point cloning a bc if you're not changing its values")
  else if negb (is_None value) && negb (is_None homogenize_arg) then
    raise (ValueError "Cannot provide both value and homogenize")
  else
    h ← lift (truthy homogenize_arg);
    if h : bool then
      bc ← dolfin_DirichletBC_copy bc;
      _ ← homogenize bc;
      mret bc
    else
      data ← get_bc bc;
      dolfin_DirichletBC (bc_function_space data) value (bc_domain_args data).

Definition create_bc (backend : Backend) (bc : nat) (value homogenize : value)
  : M nat :=
  if is_firedrake backend then create_bc_firedrake bc value homogenize
  else create_bc_dolfin bc value homogenize.

(** *** extract_bc_subvector *)

Definition extract_bc_subvector_firedrake (value : Function)
    (Vtarget : FunctionSpace) (bc : nat) : M Vector :=
  data ← get_bc bc;
  r ← lift (follow value (bc_indices data));
  if space_eqb Vtarget (function_space r) then mret (vector r)
  else raise AssertionError.

(** The dolfin branch: the assigner built for [Vtarget] and the bc's space
    writes the extracted sub-function into a fresh function on [Vtarget],
    whose vector is returned. *)
Definition extract_bc_subvector_dolfin (backend : Backend) (value : Function)
    (Vtarget : FunctionSpace) (bc : nat) : M Vector :=
  data ← get_bc bc;
  r ← lift (extract_subfunction backend value (bc_function_space data));
  lift (backend_assign backend Vtarget (bc_function_space data) r).

Definition extract_bc_subvector (backend : Backend) (value : Function)
    (Vtarget : FunctionSpace) (bc : nat) : M Vector :=
  if is_firedrake backend then extract_bc_subvector_firedrake value Vtarget bc
  else extract_bc_subvector_dolfin backend value Vtarget bc.

(** *** assemble_adjoint_value *)

Definition assemble_adjoint_value (backend : Backend) (args : list value)
    (kwargs : gmap string value) : M value :=
  if is_firedrake backend then
    result ← backend_assemble backend args kwargs;
    match result with
    | VFunction u => mret (VVector (vector u))
    | _ => mret result
    end
  else backend_assemble backend args kwargs.

(** *** gather *)

(** [vec.gather()] in the firedrake branch: a method of backend vectors,
    answering all values as a local array; other values have no such
    attribute. *)
Definition method_gather (vec : value) : result value :=
  match vec with
  | VVector x => Ok (VArray (vec_values x))
  | _ => Raise (AttributeError "gather")
  end.

Definition gather_firedrake (vec : value) : result value :=
  method_gather vec.

(** The entries of a vector at the given global indices. *)
Definition gather_indices (x : Vector) (indices : list nat)
  : result (list float) :=
  mapM (getitem (vec_values x)) indices.

(** [try: body except TypeError: handler] *)
Definition try_except_TypeError {A} (body handler : result A) : result A :=
  match body with
  | Raise TypeError => handler
  | r => r
  end.

(** The vector case of the dolfin branch.  The two-argument call fills a
    [DoubleArray], turned into a list; where the backend only has the
    one-argument signature it raises [TypeError] and the one-argument call
    answers an array. *)
Definition gather_vector_dolfin (backend : Backend) (x : Vector)
  : result value :=
  let size := length (vec_values x) in
  try_except_TypeError
    (if backend_legacy_gather backend then
       arr ← gather_indices x (seq 0 size);
       mret (VList (VFloat <$> arr))
     else Raise TypeError)
    (arr ← gather_indices x (seq 0 size); mret (VArray arr)).

(** A function is first replaced by its vector, so it takes the vector
    case. *)
Fixpoint gather_dolfin (backend : Backend) (vec : value) : result value :=
  match vec with
  | VFunction u => gather_vector_dolfin backend (vector u)
  | VVector x => gather_vector_dolfin backend x
  | VList l => VList <$> mapM (gather_dolfin backend) l
  | _ => Ok vec
  end.

Definition gather (backend : Backend) (vec : value) : result value :=
  if is_firedrake backend then gather_firedrake vec
  else gather_dolfin backend vec.

(** ** The recording framework, as [project] uses it *)

(** Modelled from the spec: [annotate_tape] of [pyadjoint.tape], which
    reads and removes the [annotate] option, recording being the default
    when the option is absent, and answers [False] while the global
    recording context is suspended.  The options left are returned along
    with the answer, since the caller's dictionary is updated in place. *)
Definition annotate_tape (kwargs : gmap string value)
  : M (value * gmap string value) := λ w,
  let annotate := default (VBool true) (kwargs !! "annotate") in
  let kwargs := delete "annotate" kwargs in
  (Ok (if annotation_enabled w then annotate else VBool false, kwargs), w).

(** Modelled from the spec: [stop_annotating] of [pyadjoint.tape], a scoped
    context that suspends recording for its duration and resumes the prior
    recording state on exit. *)
Definition stop_annotating : ContextManager bool :=
  mkContextManager bool
    (λ w, (Ok (annotation_enabled w), set_annotation_enabled false w))
    (λ prior w, (Ok tt, set_annotation_enabled prior w)).

(** Modelled from the spec: [create_overloaded_object] of
    [pyadjoint.overloaded_type], which wraps a raw backend value in a
    fresh overloaded object, without copying the value. *)
Definition create_overloaded_object (raw : value) : M nat := λ w,
  (Ok (length (overloaded_store w)),
   set_overloaded_store (overloaded_store w ++ [raw]) w).

Definition block_variable (output : nat) : BlockVariable :=
  mkBlockVariable output.

(** The block classes of [fenics_adjoint.blocks]: the options
    [SolveBlock.pop_kwargs] recognises, and the conditions under which the
    [ProjectBlock] constructor refuses its arguments. *)
Record BlockLib : Type := mkBlockLib {
  solve_kwargs_keys : list string;
  ProjectBlock_check :
    value → value → value → gmap string value → option exn
}.

(** Modelled from the spec: [SolveBlock.pop_kwargs], which splits the
    options the solve record recognises out of the dictionary it is given:
    the pair answered is these options and the dictionary left. *)
Definition pop_kwargs (blocks : BlockLib) (kwargs : gmap string value)
  : gmap string value * gmap string value :=
  foldl (λ '(popped, kwargs) k,
           match kwargs !! k with
           | Some v => (<[k := v]> popped, delete k kwargs)
           | None => (popped, kwargs)
           end)
        (∅, kwargs) (solve_kwargs_keys blocks).

(** Modelled from the spec: the [ProjectBlock] constructor, taking the
    source, the destination, the output wrapper, the boundary conditions
    and the remaining options; the new record has no declared output
    yet. *)
Definition ProjectBlock (blocks : BlockLib) (v V : value) (output : nat)
    (bcs : value) (sb_kwargs : gmap string value) : M nat := λ w,
  match ProjectBlock_check blocks v V bcs sb_kwargs with
  | Some e => (Raise e, w)
  | None =>
      (Ok (length (block_store w)),
       set_block_store
         (block_store w ++ [mkBlock v V output bcs sb_kwargs []]) w)
  end.

(** Modelled from the spec: [get_working_tape().add_block(block)], which
    attaches a record to the active recording context. *)
Definition add_block (block : nat) : M unit := λ w,
  (Ok tt, set_working_tape (working_tape w ++ [block]) w).

(** Modelled from the spec: [block.add_output(var)], which registers a
    declared output on the record, in place. *)
Definition add_output (block : nat) (var : BlockVariable) : M unit := λ w,
  match block_store w !! block with
  | Some b =>
      (Ok tt,
       set_block_store
         (<[block := mkBlock (block_source b) (block_target b) (block_result b)
                       (block_bcs b) (block_kwargs b)
                       (block_outputs b ++ [var])]> (block_store w)) w)
  | None => (Raise (AttributeError "add_output"), w)
  end.

(** ** projection.py *)

Definition project (backend : Backend) (blocks : BlockLib) (args : list value)
    (kwargs : gmap string value) : M nat :=
  '(annotate, kwargs) ← annotate_tape kwargs;
  output ← py_with stop_annotating (backend_project backend args kwargs);
  output ← create_overloaded_object output;
  annotate ← lift (truthy annotate);
  if annotate : bool then
    let bcs := default (VList []) (kwargs !! "bcs") in
    let kwargs := delete "bcs" kwargs in
    let '(sb_kwargs, kwargs) := pop_kwargs blocks kwargs in
    v ← lift (getitem args 0);
    V ← lift (getitem args 1);
    block ← ProjectBlock blocks v V output bcs sb_kwargs;
    _ ← add_block block;
    _ ← add_output block (block_variable output);
    mret output
  else mret output.

(** ** What the code relies on from the backend *)

(** The native projection may itself run annotated operations; these
    consult the annotation flag, so that nothing reaches the tape while
    recording is suspended. *)
Definition records_only_when_enabled (backend : Backend) : Prop :=
  ∀ args kwargs w,
    annotation_enabled w = false →
    working_tape (backend_project backend args kwargs w).2 = working_tape w
    ∧ block_store (backend_project backend args kwargs w).2 = block_store w.

(** A call assembles a 1-form when its first argument is a form of
    arity one. *)
Definition assembles_one_form (args : list value) : Prop :=
  ∃ f rest, args = VForm 1 f :: rest.

(** Assembling a 1-form natively gives a function or a vector in
    firedrake, a vector otherwise. *)
Definition native_one_form_result (backend : Backend) (r : value) : Prop :=
  if is_firedrake backend
  then isinstance_Function r = true ∨ isinstance_Vector r = true
  else isinstance_Vector r = true.

Definition one_form_contract (backend : Backend) : Prop :=
  ∀ args kwargs w r w',
    assembles_one_form args →
    backend_assemble backend args kwargs w = (Ok r, w') →
    native_one_form_result backend r.

(** ** Concrete backends and states, for evaluating the definitions *)

Module Demo.

Definition V_root : FunctionSpace := mkFunctionSpace 0 None None [].
Definition V_sub1 : FunctionSpace := mkFunctionSpace 2 (Some 1) (Some V_root) [1].
Definition V_collapsed : FunctionSpace := mkFunctionSpace 3 None None [].

Definition u0 : Function := mkFunction (mkFunctionSpace 1 (Some 0) (Some V_root) [0])
                              (mkVector [1%float]) [].
Definition u1 : Function := mkFunction V_sub1 (mkVector [2%float; 3%float]) [].
Definition u : Function :=
  mkFunction V_root (mkVector [1%float; 2%float; 3%float]) [u0; u1].

(** A native projection that fails without arguments and otherwise
    answers a function; like any annotated operation it records a step of
    its own when recording is enabled. *)
Definition native_project (args : list value) (kwargs : gmap string value)
  : M value := λ w,
  match args with
  | [] => (Raise (BackendError 1), w)
  | v :: _ =>
      (Ok (VFunction u),
       if annotation_enabled w then
         set_working_tape (working_tape w ++ [length (block_store w)])
           (set_block_store (block_store w ++ [mkBlock v VNone 0 VNone ∅ []]) w)
       else w)
  end.

(** Native assembly by arity: a scalar, then a function (firedrake) or a
    vector (dolfin), then a matrix. *)
Definition native_assemble (one_form : value) (args : list value)
    (kwargs : gmap string value) : M value :=
  match args with
  | VForm 0 _ :: _ => mret (VFloat 0%float)
  | VForm 1 _ :: _ => mret one_form
  | VForm _ f :: _ => mret (VMatrix f)
  | _ => raise (BackendError 2)
  end.

(** An assigner that accepts any pair of spaces and copies the source's
    coefficients. *)
Definition native_assign (Vtarget Vsource : FunctionSpace) (f : Function)
  : result Vector :=
  Ok (vector f).

Definition firedrake : Backend :=
  mkBackend "firedrake" native_project (native_assemble (VFunction u))
    native_assign false.

Definition dolfin : Backend :=
  mkBackend "dolfin" native_project
    (native_assemble (VVector (vector u))) native_assign true.

Definition blocks : BlockLib :=
  mkBlockLib ["solver_parameters"; "form_compiler_parameters"] (λ _ _ _ _, None).

Definition bc0 : DirichletBC :=
  mkDirichletBC V_sub1 (VFloat 1%float) (VStr "on_boundary") (VStr "topological")
    [VStr "on_boundary"] [1].

Definition w0 : World := mkWorld true [] [] [] [bc0].

Definition args0 : list value := [VFunction u; VFunctionSpace V_root].

Definition kwargs0 : gmap string value :=
  {[ "bcs" := VList [VDirichletBC 0]; "solver_parameters" := VObject 7 ]}.

Definition kwargs_off : gmap string value :=
  <["annotate" := VBool false]> kwargs0.

Definition x1 : Vector := mkVector [1%float; 2%float].
Definition x2 : Vector := mkVector [3%float].

End Demo.

(** ** The path of the firedrake loop *)

(** The indices the loop of the firedrake extract_subfunction passes to
    [sub]: those met walking up from [V] for as long as the index is
    true, innermost first. *)
Fixpoint truthy_indices (V : FunctionSpace) : list nat :=
  match V with
  | mkFunctionSpace _ (Some (S _ as i)) parent _ =>
      i :: match parent with Some P => truthy_indices P | None => [] end
  | _ => []
  end.

(** Every space met on that walk with a true index has a parent. *)
Fixpoint parents_present (V : FunctionSpace) : bool :=
  match V with
  | mkFunctionSpace _ (Some (S _)) parent _ =>
      match parent with Some P => parents_present P | None => false end
  | _ => true
  end.

(** Values gather leaves as they are: gathered lists and arrays, and
    whatever is neither a vector nor a function. *)
Fixpoint gathered (v : value) : bool :=
  match v with
  | VFunction _ | VVector _ => false
  | VList l => forallb gathered l
  | _ => true
  end.

Module Demo2.

Definition V_mixed : FunctionSpace := mkFunctionSpace 10 None None [].
Definition V_first : FunctionSpace := mkFunctionSpace 11 (Some 0) (Some V_mixed) [0].
Definition V_second : FunctionSpace := mkFunctionSpace 12 (Some 1) (Some V_mixed) [1].
Definition V_inner : FunctionSpace := mkFunctionSpace 13 (Some 2) (Some V_second) [1; 2].

Definition leaf (V : FunctionSpace) (x : float) : Function :=
  mkFunction V (mkVector [x]) [].

Definition g1 : Function :=
  mkFunction V_second (mkVector [2%float; 3%float; 4%float])
    [leaf V_inner 2%float; leaf V_inner 3%float; leaf V_inner 4%float].

Definition g2 : Function :=
  mkFunction V_inner (mkVector [7%float; 8%float])
    [leaf V_second 7%float; leaf V_second 8%float].

Definition g : Function :=
  mkFunction V_mixed (mkVector [1%float; 2%float; 3%float; 4%float])
    [leaf V_first 1%float; g1; g2].

Definition dolfin_new : Backend :=
  mkBackend "dolfin" Demo.native_project
    (Demo.native_assemble (VVector (vector g))) Demo.native_assign false.

Definition bc_first : DirichletBC :=
  mkDirichletBC V_second (VFloat 5%float) (VInt 1) (VStr "topological")
    [VInt 1] [1].

Definition w1 : World := mkWorld true [] [] [] [Demo.bc0; bc_first].

End Demo2.

(** ** Properties of the annotated projection *)

Section Project.

Context (backend : Backend) (blocks : BlockLib).

(** What [project] does once the native call has raised. *)
Lemma project_native_raise args kwargs w e w1 :
  backend_project backend args (delete "annotate" kwargs)
    (set_annotation_enabled false w) = (Raise e, w1) →
  project backend blocks args kwargs w
  = (Raise e, set_annotation_enabled (annotation_enabled w) w1).
Proof.
  intros Hnative.
  unfold project, mbind, M_bind, annotate_tape, py_with. simpl.
  rewrite Hnative. reflexivity.
Qed.

(** What [project] does once the native call has returned, up to the
    test of [annotate]. *)
Lemma project_native_ok args kwargs w raw w1 :
  backend_project backend args (delete "annotate" kwargs)
    (set_annotation_enabled false w) = (Ok raw, w1) →
  project backend blocks args kwargs w
  = (annotate ← lift (truthy (if annotation_enabled w
                            then default (VBool true) (kwargs !! "annotate")
                            else VBool false));
     if annotate : bool then
       let kwargs := delete "annotate" kwargs in
       let bcs := default (VList []) (kwargs !! "bcs") in
       let kwargs := delete "bcs" kwargs in
       let '(sb_kwargs, kwargs) := pop_kwargs blocks kwargs in
       v ← lift (getitem args 0);
       V ← lift (getitem args 1);
       block ← ProjectBlock blocks v V (length (overloaded_store w1)) bcs sb_kwargs;
       _ ← add_block block;
       _ ← add_output block (block_variable (length (overloaded_store w1)));
       mret (length (overloaded_store w1))
     else mret (length (overloaded_store w1)))
      (set_overloaded_store (overloaded_store w1 ++ [raw])
         (set_annotation_enabled (annotation_enabled w) w1)).
Proof.
  intros Hnative.
  unfold project, mbind at 1 2 3, M_bind, annotate_tape, py_with. simpl.
  rewrite Hnative. reflexivity.
Qed.

(** C1: a call to [project] with recording enabled whose native projection
    returns, made with its source and destination as positional arguments
    and options the record constructor accepts, returns an output wrapper
    and appends exactly one new block to the working tape; the outputs
    declared on that block are the block variable of the very wrapper
    returned, and no other block is touched. *)
Theorem project_records_one_block args kwargs w v V rest raw w1 :
  records_only_when_enabled backend →
  annotation_enabled w = true →
  truthy (default (VBool true) (kwargs !! "annotate")) = Ok true →
  args = v :: V :: rest →
  backend_project backend args (delete "annotate" kwargs)
    (set_annotation_enabled false w) = (Ok raw, w1) →
  ProjectBlock_check blocks v V
    (default (VList []) (delete "annotate" kwargs !! "bcs"))
    (pop_kwargs blocks (delete "bcs" (delete "annotate" kwargs))).1 = None →
  ∃ output block w',
    project backend blocks args kwargs w = (Ok output, w')
    ∧ overloaded_store w' !! output = Some raw
    ∧ working_tape w' = working_tape w ++ [block]
    ∧ block_store w !! block = None
    ∧ (∃ b, block_store w' !! block = Some b
            ∧ block_result b = output
            ∧ block_outputs b = [block_variable output])
    ∧ (∀ i, i ≠ block → block_store w' !! i = block_store w !! i).
Proof.
  intros Hquiet Hon Hannotate -> Hnative Hcheck.
  destruct (Hquiet (v :: V :: rest) (delete "annotate" kwargs)
              (set_annotation_enabled false w) eq_refl) as [Htape Hstore].
  rewrite Hnative in Htape, Hstore. simpl in Htape, Hstore.
  rewrite (project_native_ok _ _ _ _ _ Hnative), Hon.
  unfold mbind at 1, M_bind, lift at 1. rewrite Hannotate. simpl.
  destruct (pop_kwargs blocks (delete "bcs" (delete "annotate" kwargs)))
    as [sb_kwargs kwargs'] eqn:Hpop. simpl in Hcheck.
  unfold mbind, M_bind, lift, getitem, ProjectBlock, add_block, add_output, mret, M_ret.
  simpl. rewrite Hcheck. simpl.
  rewrite Hstore, Htape.
  rewrite (lookup_app_r (block_store w)) by lia.
  rewrite Nat.sub_diag. simpl.
  exists (length (overloaded_store w1)), (length (block_store w)). eexists.
  split; [reflexivity|]. simpl.
  split; [by rewrite lookup_app_r, Nat.sub_diag by lia|].
  split; [reflexivity|].
  split; [by apply lookup_ge_None_2|].
  split.
  - eexists. split.
    + apply list_lookup_insert_eq. rewrite length_app. simpl. lia.
    + split; reflexivity.
  - intros i Hi. rewrite list_lookup_insert_ne by done.
    destruct (decide (i < length (block_store w))) as [Hlt|Hge].
    + by rewrite lookup_app_l.
    + rewrite !lookup_ge_None_2; [done|lia|rewrite length_app; simpl; lia].
Qed.

(** C2: when the native projection raises, [project] raises the same
    error and the annotation flag afterwards is the flag before the call:
    the exit of [stop_annotating] runs on the error path too. *)
Theorem project_restores_annotation_on_error args kwargs w e w1 :
  backend_project backend args (delete "annotate" kwargs)
    (set_annotation_enabled false w) = (Raise e, w1) →
  ∃ w', project backend blocks args kwargs w = (Raise e, w')
        ∧ annotation_enabled w' = annotation_enabled w.
Proof.
  intros Hnative. eexists. split.
  - by apply project_native_raise.
  - reflexivity.
Qed.

(** C3: with [annotate=False] the working tape and the blocks are after
    the call what they were before it, whether the native projection
    returns or raises; and when it returns, the call returns a wrapper of
    the raw result. *)
Theorem project_annotate_false_no_block args kwargs w :
  records_only_when_enabled backend →
  kwargs !! "annotate" = Some (VBool false) →
  working_tape (project backend blocks args kwargs w).2 = working_tape w
  ∧ block_store (project backend blocks args kwargs w).2 = block_store w
  ∧ ∀ raw w1,
      backend_project backend args (delete "annotate" kwargs)
        (set_annotation_enabled false w) = (Ok raw, w1) →
      ∃ output,
        (project backend blocks args kwargs w).1 = Ok output
        ∧ overloaded_store (project backend blocks args kwargs w).2 !! output
          = Some raw.
Proof.
  intros Hquiet Hkw.
  destruct (Hquiet args (delete "annotate" kwargs)
              (set_annotation_enabled false w) eq_refl) as [Htape Hstore].
  destruct (backend_project backend args (delete "annotate" kwargs)
              (set_annotation_enabled false w)) as [[raw|e] w1] eqn:Hnative.
  - rewrite (project_native_ok _ _ _ _ _ Hnative), Hkw. simpl.
    assert (Hfalse : truthy (if annotation_enabled w then VBool false
                             else VBool false) = Ok false)
      by (by destruct (annotation_enabled w)).
    unfold mbind at 1, M_bind, lift at 1. rewrite Hfalse. simpl.
    split; [done|]. split; [done|].
    intros raw' w1' [= <- <-]. eexists. split; [reflexivity|].
    by rewrite lookup_app_r, Nat.sub_diag by lia.
  - rewrite (project_native_raise _ _ _ _ _ Hnative). simpl.
    split; [done|]. split; [done|]. intros ? ? [=].
Qed.

End Project.

(** ** Properties of the compatibility table *)

Section Compat.

Context (backend : Backend).

Lemma is_None_false (v : value) : v ≠ VNone → is_None v = false.
Proof. by destruct v. Qed.

Lemma mapM_result_ext {A B} (f g : A → result B) (l : list A) :
  (∀ a, f a = g a) → mapM f l = mapM g l.
Proof.
  intros Hfg. induction l as [|a l IH]; [done|].
  simpl. by rewrite Hfg, IH.
Qed.

(** C9: extract_subfunction applied to a field [u] and a root space [V]
    (no index, hence no parent chain to walk, and an empty component list)
    returns [u] itself, in the firedrake branch and in the other one. *)
Theorem extract_subfunction_root (u : Function) (V : FunctionSpace) :
  fs_index V = None →
  fs_component V = [] →
  extract_subfunction backend u V = Ok u.
Proof.
  intros Hindex Hcomponent. unfold extract_subfunction.
  destruct (is_firedrake backend).
  - destruct V as [i index parent component]. simpl in Hindex. subst index.
    reflexivity.
  - unfold extract_subfunction_dolfin. rewrite Hcomponent. reflexivity.
Qed.

(** C4: on an existing boundary condition [bc], in either branch:
    [create_bc(bc, value=v)] and [create_bc(bc, homogenize=True)] return a
    reference to a new object, different from [bc], and leave the object
    [bc] names as it was; [create_bc(bc)] and
    [create_bc(bc, value=v, homogenize=h)] raise [ValueError] and change
    nothing. *)
Theorem create_bc_contract (w : World) (bc : nat) (data : DirichletBC)
    (v h : value) :
  bc_store w !! bc = Some data →
  v ≠ VNone →
  h ≠ VNone →
  (∃ new w', create_bc backend bc v VNone w = (Ok new, w')
             ∧ new ≠ bc ∧ bc_store w !! new = None
             ∧ is_Some (bc_store w' !! new)
             ∧ bc_store w' !! bc = Some data)
  ∧ (∃ new w', create_bc backend bc VNone (VBool true) w = (Ok new, w')
               ∧ new ≠ bc ∧ bc_store w !! new = None
               ∧ is_Some (bc_store w' !! new)
               ∧ bc_store w' !! bc = Some data)
  ∧ (∃ msg, create_bc backend bc VNone VNone w = (Raise (ValueError msg), w))
  ∧ (∃ msg, create_bc backend bc v h w = (Raise (ValueError msg), w)).
Proof.
  intros Hbc Hv Hh.
  pose proof (lookup_lt_Some _ _ _ Hbc) as Hlt.
  assert (Hnew : bc_store w !! length (bc_store w) = None)
    by (by apply lookup_ge_None_2).
  assert (Hlast : ∀ d, (bc_store w ++ [d]) !! length (bc_store w) = Some d)
    by (intros d; by rewrite lookup_app_r, Nat.sub_diag by lia).
  unfold create_bc, create_bc_firedrake, create_bc_dolfin.
  rewrite (is_None_false v Hv), (is_None_false h Hh).
  repeat split.
  - exists (length (bc_store w)).
    destruct (is_firedrake backend); simpl;
      unfold mbind, M_bind, lift, get_bc, firedrake_DirichletBC,
        dolfin_DirichletBC, alloc_bc; simpl; rewrite Hbc; simpl;
      (eexists; split; [reflexivity|]; simpl;
       split; [lia|]; split; [done|]; split; [by rewrite Hlast|];
       by rewrite lookup_app_l).
  - exists (length (bc_store w)).
    destruct (is_firedrake backend); simpl;
      unfold firedrake_DirichletBC, dolfin_DirichletBC_copy, homogenize,
        mbind, M_bind, lift, get_bc, alloc_bc;
      simpl; rewrite Hbc; simpl; rewrite ?Hlast; simpl;
      (eexists; split; [reflexivity|]; simpl;
       split; [lia|]; split; [done|]; split).
    + by rewrite Hlast.
    + by rewrite lookup_app_l.
    + rewrite list_lookup_insert_eq; [done|]. rewrite length_app. simpl. lia.
    + rewrite list_lookup_insert_ne by lia. by rewrite lookup_app_l.
  - destruct (is_firedrake backend); eexists; reflexivity.
  - destruct (is_firedrake backend); eexists; reflexivity.
Qed.

(** C10: the checks of create_bc test for [None], not for truth: on an
    existing [bc], [create_bc(bc, homogenize=False)] raises nothing and
    returns a new boundary condition whose value is [None], and
    [create_bc(bc, value=v, homogenize=False)] raises the error for both
    arguments given. *)
Theorem create_bc_tests_None (w : World) (bc : nat) (data : DirichletBC)
    (v : value) :
  bc_store w !! bc = Some data →
  v ≠ VNone →
  (∃ new w' data',
      create_bc backend bc VNone (VBool false) w = (Ok new, w')
      ∧ bc_store w !! new = None
      ∧ bc_store w' !! new = Some data'
      ∧ bc_value data' = VNone)
  ∧ create_bc backend bc v (VBool false) w
    = (Raise (ValueError "Cannot provide both value and homogenize"), w).
Proof.
  intros Hbc Hv.
  unfold create_bc, create_bc_firedrake, create_bc_dolfin.
  rewrite (is_None_false v Hv). split.
  - exists (length (bc_store w)).
    destruct (is_firedrake backend); simpl;
      unfold mbind, M_bind, lift, get_bc, firedrake_DirichletBC,
        dolfin_DirichletBC, alloc_bc; simpl; rewrite Hbc; simpl;
      (do 2 eexists; split; [reflexivity|]; simpl;
       split; [by apply lookup_ge_None_2|];
       split; [by rewrite lookup_app_r, Nat.sub_diag by lia|done]).
  - by destruct (is_firedrake backend).
Qed.

(** C5, as amended: when the active backend is not firedrake, gather
    returns a plain array unchanged, and so gathering twice is gathering
    once. *)
Theorem gather_plain_array_dolfin (a : list float) :
  is_firedrake backend = false →
  gather backend (VArray a) = Ok (VArray a)
  ∧ (gather backend (VArray a) ≫= gather backend) = gather backend (VArray a).
Proof.
  intros Hbranch. unfold gather. rewrite Hbranch. by split.
Qed.

(** C6, as amended: when the active backend is not firedrake, gather of a
    list is the list of the gathers of its elements, an error of an
    element being the error of the whole. *)
Theorem gather_list_dolfin (vs : list value) :
  is_firedrake backend = false →
  gather backend (VList vs) = VList <$> mapM (gather backend) vs.
Proof.
  intros Hbranch. unfold gather at 1. rewrite Hbranch. simpl.
  f_equal. apply mapM_result_ext. intros v. unfold gather. by rewrite Hbranch.
Qed.

(** C7, as amended: in the firedrake branch, when following the indices
    of the boundary condition through [value] ends in a sub-function whose
    space is not [Vtarget], extract_bc_subvector fails with an assertion
    error and changes nothing. *)
Theorem extract_bc_subvector_firedrake_asserts (value : Function)
    (Vtarget : FunctionSpace) (bc : nat) (w : World) (data : DirichletBC)
    (r : Function) :
  is_firedrake backend = true →
  bc_store w !! bc = Some data →
  follow value (bc_indices data) = Ok r →
  space_eqb Vtarget (function_space r) = false →
  extract_bc_subvector backend value Vtarget bc w = (Raise AssertionError, w).
Proof.
  intros Hbranch Hbc Hfollow Hspace.
  unfold extract_bc_subvector, extract_bc_subvector_firedrake.
  rewrite Hbranch. unfold mbind, M_bind, get_bc, lift.
  by rewrite Hbc, Hfollow, Hspace.
Qed.

(** The dolfin branch makes no comparison of spaces: once the sub-function
    is extracted, the outcome is the one of the backend's assigner. *)
Lemma extract_bc_subvector_dolfin_outcome (value : Function)
    (Vtarget : FunctionSpace) (bc : nat) (w : World) (data : DirichletBC)
    (r : Function) :
  is_firedrake backend = false →
  bc_store w !! bc = Some data →
  follow value (fs_component (bc_function_space data)) = Ok r →
  extract_bc_subvector backend value Vtarget bc w
  = (backend_assign backend Vtarget (bc_function_space data) r, w).
Proof.
  intros Hbranch Hbc Hfollow.
  unfold extract_bc_subvector, extract_bc_subvector_dolfin, extract_subfunction,
    extract_subfunction_dolfin.
  rewrite Hbranch. unfold mbind, M_bind, get_bc, lift.
  by rewrite Hbc, Hfollow.
Qed.

(** C8: when the backend assembles 1-forms as its branch expects (a
    function or a vector in firedrake, a vector otherwise), every value
    assemble_adjoint_value returns for a 1-form satisfies [VectorType] and
    does not satisfy [FunctionType]. *)
Theorem assemble_adjoint_value_vector (args : list value)
    (kwargs : gmap string value) (w : World) (r : value) (w' : World) :
  one_form_contract backend →
  assembles_one_form args →
  backend_assemble backend args kwargs w = (Ok r, w') →
  ∃ r', assemble_adjoint_value backend args kwargs w = (Ok r', w')
        ∧ VectorType backend r' = true
        ∧ FunctionType backend r' = false.
Proof.
  intros Hcontract Hform Hnative.
  pose proof (Hcontract _ _ _ _ _ Hform Hnative) as Hr.
  unfold native_one_form_result in Hr.
  unfold assemble_adjoint_value, VectorType, FunctionType.
  destruct (is_firedrake backend).
  - unfold mbind, M_bind. rewrite Hnative.
    destruct Hr as [Hr|Hr]; destruct r; try discriminate Hr;
      eexists; (split; [reflexivity|]); by split.
  - rewrite Hnative. destruct r; try discriminate Hr.
    eexists. split; [reflexivity|]. by split.
Qed.

(** An error of the native assembly is the error of
    assemble_adjoint_value. *)
Lemma assemble_adjoint_value_raise (args : list value)
    (kwargs : gmap string value) (w : World) (e : exn) (w' : World) :
  backend_assemble backend args kwargs w = (Raise e, w') →
  assemble_adjoint_value backend args kwargs w = (Raise e, w').
Proof.
  intros Hnative. unfold assemble_adjoint_value.
  destruct (is_firedrake backend); [|done].
  unfold mbind, M_bind. by rewrite Hnative.
Qed.

End Compat.

(** ** The hypotheses above are the ones of every returning call *)

(** A recorded call that returns had its native projection return, two
    positional arguments at least, and options the record constructor
    accepted. *)
Lemma project_returns_inv (backend : Backend) (blocks : BlockLib)
    (args : list value) (kwargs : gmap string value) (w : World)
    (output : nat) (w' : World) :
  annotation_enabled w = true →
  truthy (default (VBool true) (kwargs !! "annotate")) = Ok true →
  project backend blocks args kwargs w = (Ok output, w') →
  ∃ v V rest raw w1,
    args = v :: V :: rest
    ∧ backend_project backend args (delete "annotate" kwargs)
        (set_annotation_enabled false w) = (Ok raw, w1)
    ∧ ProjectBlock_check blocks v V
        (default (VList []) (delete "annotate" kwargs !! "bcs"))
        (pop_kwargs blocks (delete "bcs" (delete "annotate" kwargs))).1 = None.
Proof.
  intros Hon Hannotate Hcall.
  destruct (backend_project backend args (delete "annotate" kwargs)
              (set_annotation_enabled false w)) as [[raw|e] w1] eqn:Hnative.
  - rewrite (project_native_ok _ _ _ _ _ _ _ Hnative), Hon in Hcall.
    unfold mbind at 1, M_bind, lift at 1 in Hcall.
    rewrite Hannotate in Hcall. simpl in Hcall.
    destruct (pop_kwargs blocks (delete "bcs" (delete "annotate" kwargs)))
      as [sb_kwargs kwargs'] eqn:Hpop. simpl.
    destruct args as [|v [|V rest]]; [discriminate Hcall..|].
    exists v, V, rest, raw, w1. split; [done|]. split; [done|].
    unfold mbind, M_bind, lift, getitem, ProjectBlock in Hcall.
    simpl in Hcall.
    by destruct (ProjectBlock_check blocks v V _ sb_kwargs).
  - rewrite (project_native_raise _ _ _ _ _ _ _ Hnative) in Hcall.
    discriminate Hcall.
Qed.

(** ** The concrete backends meet what is asked of a backend *)

Lemma demo_records_only_when_enabled (b : Backend) :
  backend_project b = Demo.native_project →
  records_only_when_enabled b.
Proof.
  intros Hb args kwargs w Hoff. rewrite Hb. unfold Demo.native_project.
  destruct args; [done|]. simpl. by rewrite Hoff.
Qed.

Lemma demo_firedrake_one_form : one_form_contract Demo.firedrake.
Proof.
  intros args kwargs w r w' (f & rest & ->) [= <- _]. by left.
Qed.

Lemma demo_dolfin_one_form : one_form_contract Demo.dolfin.
Proof.
  intros args kwargs w r w' (f & rest & ->) [= <- _]. done.
Qed.

(** ** The theorems at concrete calls *)

Lemma project_records_one_block_witness :
  ∃ output block w',
    project Demo.firedrake Demo.blocks Demo.args0 Demo.kwargs0 Demo.w0
    = (Ok output, w')
    ∧ overloaded_store w' !! output = Some (VFunction Demo.u)
    ∧ working_tape w' = working_tape Demo.w0 ++ [block]
    ∧ block_store Demo.w0 !! block = None
    ∧ (∃ b, block_store w' !! block = Some b
            ∧ block_result b = output
            ∧ block_outputs b = [block_variable output])
    ∧ (∀ i, i ≠ block → block_store w' !! i = block_store Demo.w0 !! i).
Proof.
  eapply (project_records_one_block Demo.firedrake Demo.blocks Demo.args0
            Demo.kwargs0 Demo.w0).
  - by apply demo_records_only_when_enabled.
  - reflexivity.
  - reflexivity.
  - reflexivity.
  - reflexivity.
  - reflexivity.
Defined.

Lemma project_restores_annotation_on_error_witness :
  ∃ w', project Demo.dolfin Demo.blocks [] Demo.kwargs0 Demo.w0
        = (Raise (BackendError 1), w')
        ∧ annotation_enabled w' = annotation_enabled Demo.w0.
Proof.
  eapply (project_restores_annotation_on_error Demo.dolfin Demo.blocks []
            Demo.kwargs0 Demo.w0).
  reflexivity.
Defined.

Lemma project_annotate_false_no_block_witness :
  working_tape
    (project Demo.dolfin Demo.blocks Demo.args0 Demo.kwargs_off Demo.w0).2
  = working_tape Demo.w0
  ∧ block_store
      (project Demo.dolfin Demo.blocks Demo.args0 Demo.kwargs_off Demo.w0).2
    = block_store Demo.w0
  ∧ ∀ raw w1,
      backend_project Demo.dolfin Demo.args0 (delete "annotate" Demo.kwargs_off)
        (set_annotation_enabled false Demo.w0) = (Ok raw, w1) →
      ∃ output,
        (project Demo.dolfin Demo.blocks Demo.args0 Demo.kwargs_off Demo.w0).1
        = Ok output
        ∧ overloaded_store
            (project Demo.dolfin Demo.blocks Demo.args0 Demo.kwargs_off
               Demo.w0).2 !! output
          = Some raw.
Proof.
  apply (project_annotate_false_no_block Demo.dolfin Demo.blocks Demo.args0
           Demo.kwargs_off Demo.w0).
  - by apply demo_records_only_when_enabled.
  - reflexivity.
Defined.

Lemma extract_subfunction_root_witness :
  extract_subfunction Demo.firedrake Demo.u Demo.V_root = Ok Demo.u.
Proof. apply extract_subfunction_root; reflexivity. Defined.

Lemma create_bc_contract_witness :
  (∃ new w', create_bc Demo.dolfin 0 (VFloat 2%float) VNone Demo.w0 = (Ok new, w')
             ∧ new ≠ 0 ∧ bc_store Demo.w0 !! new = None
             ∧ is_Some (bc_store w' !! new)
             ∧ bc_store w' !! 0 = Some Demo.bc0)
  ∧ (∃ new w', create_bc Demo.dolfin 0 VNone (VBool true) Demo.w0 = (Ok new, w')
               ∧ new ≠ 0 ∧ bc_store Demo.w0 !! new = None
               ∧ is_Some (bc_store w' !! new)
               ∧ bc_store w' !! 0 = Some Demo.bc0)
  ∧ (∃ msg, create_bc Demo.dolfin 0 VNone VNone Demo.w0
            = (Raise (ValueError msg), Demo.w0))
  ∧ (∃ msg, create_bc Demo.dolfin 0 (VFloat 2%float) (VBool true) Demo.w0
            = (Raise (ValueError msg), Demo.w0)).
Proof.
  apply (create_bc_contract Demo.dolfin Demo.w0 0 Demo.bc0 (VFloat 2%float)
           (VBool true)).
  - reflexivity.
  - discriminate.
  - discriminate.
Defined.

Lemma create_bc_tests_None_witness :
  (∃ new w' data',
      create_bc Demo.firedrake 0 VNone (VBool false) Demo.w0 = (Ok new, w')
      ∧ bc_store Demo.w0 !! new = None
      ∧ bc_store w' !! new = Some data'
      ∧ bc_value data' = VNone)
  ∧ create_bc Demo.firedrake 0 (VInt 3) (VBool false) Demo.w0
    = (Raise (ValueError "Cannot provide both value and homogenize"), Demo.w0).
Proof.
  apply (create_bc_tests_None Demo.firedrake Demo.w0 0 Demo.bc0 (VInt 3)).
  - reflexivity.
  - discriminate.
Defined.

Lemma gather_plain_array_dolfin_witness :
  gather Demo.dolfin (VArray [1%float; 2%float]) = Ok (VArray [1%float; 2%float])
  ∧ (gather Demo.dolfin (VArray [1%float; 2%float]) ≫= gather Demo.dolfin)
    = gather Demo.dolfin (VArray [1%float; 2%float]).
Proof. apply gather_plain_array_dolfin. reflexivity. Defined.

Lemma gather_list_dolfin_witness :
  gather Demo.dolfin (VList [VVector Demo.x1; VFunction Demo.u1])
  = VList <$> mapM (gather Demo.dolfin) [VVector Demo.x1; VFunction Demo.u1].
Proof. apply gather_list_dolfin. reflexivity. Defined.

Lemma extract_bc_subvector_firedrake_asserts_witness :
  extract_bc_subvector Demo.firedrake Demo.u Demo.V_collapsed 0 Demo.w0
  = (Raise AssertionError, Demo.w0).
Proof.
  apply (extract_bc_subvector_firedrake_asserts Demo.firedrake Demo.u
           Demo.V_collapsed 0 Demo.w0 Demo.bc0 Demo.u1); reflexivity.
Defined.

Lemma assemble_adjoint_value_vector_witness :
  ∃ r', assemble_adjoint_value Demo.firedrake [VForm 1 0] ∅ Demo.w0
        = (Ok r', Demo.w0)
        ∧ VectorType Demo.firedrake r' = true
        ∧ FunctionType Demo.firedrake r' = false.
Proof.
  apply (assemble_adjoint_value_vector Demo.firedrake [VForm 1 0] ∅ Demo.w0
           (VFunction Demo.u) Demo.w0).
  - apply demo_firedrake_one_form.
  - by exists 0, [].
  - reflexivity.
Defined.

(** ** Where the two branches differ *)

(** C5 fails in the firedrake branch: there gather calls the [gather]
    method of its argument, which a plain array does not have. *)
Lemma gather_plain_array_firedrake_raises :
  gather Demo.firedrake (VArray [1%float; 2%float])
  = Raise (AttributeError "gather")
  ∧ gather Demo.firedrake (VArray [1%float; 2%float])
    ≠ Ok (VArray [1%float; 2%float]).
Proof. split; [reflexivity|discriminate]. Qed.

(** C6 fails in the firedrake branch: a list has no [gather] method, while
    each of its vectors is gathered into an array. *)
Lemma gather_list_firedrake_raises :
  gather Demo.firedrake (VList [VVector Demo.x1; VVector Demo.x2])
  = Raise (AttributeError "gather")
  ∧ VList <$> mapM (gather Demo.firedrake) [VVector Demo.x1; VVector Demo.x2]
    = Ok (VList [VArray [1%float; 2%float]; VArray [3%float]])
  ∧ gather Demo.firedrake (VList [VVector Demo.x1; VVector Demo.x2])
    ≠ VList <$> mapM (gather Demo.firedrake) [VVector Demo.x1; VVector Demo.x2].
Proof. split; [reflexivity|]. split; [reflexivity|discriminate]. Qed.

(** C7 fails in the dolfin branch: the sub-function the boundary condition
    selects lives on a space other than the target, and the call returns
    the vector the assigner wrote instead of failing an assertion. *)
Lemma extract_bc_subvector_dolfin_no_assert :
  extract_subfunction Demo.dolfin Demo.u (bc_function_space Demo.bc0)
  = Ok Demo.u1
  ∧ space_eqb Demo.V_collapsed (function_space Demo.u1) = false
  ∧ extract_bc_subvector Demo.dolfin Demo.u Demo.V_collapsed 0 Demo.w0
    = (Ok (vector Demo.u1), Demo.w0)
  ∧ (extract_bc_subvector Demo.dolfin Demo.u Demo.V_collapsed 0 Demo.w0).1
    ≠ Raise AssertionError.
Proof.
  split; [reflexivity|]. split; [reflexivity|]. split; [reflexivity|discriminate].
Qed.

(** ** Further properties: extract_subfunction *)

Lemma follow_app (u : Function) (c1 c2 : list nat) :
  follow u (c1 ++ c2) = follow u c1 ≫= λ r, follow r c2.
Proof.
  revert u. induction c1 as [|i c1 IH]; intros u; [done|].
  simpl. destruct (sub u i) as [r|e]; [apply IH|done].
Qed.

(** In the dolfin branch, extracting along a component list that is the
    concatenation of two is extracting along the first and then, from the
    sub-function reached, along the second; an index out of range on the
    way is the error of the whole. *)
Theorem extract_subfunction_dolfin_compose (backend : Backend) (u : Function)
    (V V1 V2 : FunctionSpace) :
  is_firedrake backend = false →
  fs_component V = fs_component V1 ++ fs_component V2 →
  extract_subfunction backend u V
  = extract_subfunction backend u V1 ≫= λ r, extract_subfunction backend r V2.
Proof.
  intros Hbranch Hcomponent. unfold extract_subfunction. rewrite Hbranch.
  unfold extract_subfunction_dolfin. rewrite Hcomponent. apply follow_app.
Qed.

(** The firedrake loop tests the truth of [V.index]: on a sub-space whose
    parent is a root space it returns [u.sub(i)] for an index [i > 0], but
    [u] itself for the sub-space of index [0]. *)
Theorem extract_subfunction_firedrake_one_level (backend : Backend)
    (u : Function) (V P : FunctionSpace) (i : nat) :
  is_firedrake backend = true →
  fs_index V = Some i →
  fs_parent V = Some P →
  fs_index P = None →
  extract_subfunction backend u V = if decide (i = 0) then Ok u else sub u i.
Proof.
  intros Hbranch Hindex Hparent Hroot. unfold extract_subfunction.
  rewrite Hbranch. destruct V as [n index parent c]. simpl in Hindex, Hparent.
  subst index parent. destruct i as [|i]; [done|].
  simpl. destruct (sub u (S i)) as [r|e]; [|done].
  destruct P as [n' index' parent' c']. simpl in Hroot. by subst index'.
Qed.

(** The firedrake loop as a whole: when every space with a true index on
    the way up has a parent, the result is that of applying [sub] along
    the true indices met from [V] upwards, innermost first. *)
Theorem extract_subfunction_firedrake_path (backend : Backend)
    (V : FunctionSpace) (u : Function) :
  is_firedrake backend = true →
  parents_present V = true →
  extract_subfunction backend u V = follow u (truthy_indices V).
Proof.
  intros Hbranch. unfold extract_subfunction. rewrite Hbranch. clear Hbranch.
  revert V u. fix IH 1. intros [n index parent c] u Hparents.
  destruct index as [[|i]|]; [done| |done].
  simpl in *. destruct (sub u (S i)) as [r|e]; [|done].
  destruct parent as [P|]; [|done]. by apply IH.
Qed.

(** Without a parent where the loop needs one, the sub-function is taken
    and the next test of [V.index] fails on [None]. *)
Theorem extract_subfunction_firedrake_orphan (backend : Backend)
    (V : FunctionSpace) (u r : Function) (i : nat) :
  is_firedrake backend = true →
  fs_index V = Some (S i) →
  fs_parent V = None →
  sub u (S i) = Ok r →
  extract_subfunction backend u V = Raise (AttributeError "index").
Proof.
  intros Hbranch Hindex Hparent Hsub. unfold extract_subfunction.
  rewrite Hbranch. destruct V as [n index parent c]. simpl in Hindex, Hparent.
  subst index parent. simpl. by rewrite Hsub.
Qed.

(** ** Further properties: create_bc *)

(** create_bc touches nothing but the store of boundary conditions, where
    it only adds: the flag, the tape, the blocks and the overloaded objects
    are as before, every boundary condition that existed is unchanged, and
    when the call raises the whole state is unchanged. *)
Theorem create_bc_frame (backend : Backend) (bc : nat) (v h : value)
    (w : World) :
  annotation_enabled (create_bc backend bc v h w).2 = annotation_enabled w
  ∧ working_tape (create_bc backend bc v h w).2 = working_tape w
  ∧ block_store (create_bc backend bc v h w).2 = block_store w
  ∧ overloaded_store (create_bc backend bc v h w).2 = overloaded_store w
  ∧ (∀ i data, bc_store w !! i = Some data →
               bc_store (create_bc backend bc v h w).2 !! i = Some data)
  ∧ (∀ e, (create_bc backend bc v h w).1 = Raise e →
          (create_bc backend bc v h w).2 = w).
Proof.
  assert (Hkeep : ∀ d i data, bc_store w !! i = Some data →
                              (bc_store w ++ [d]) !! i = Some data).
  { intros d i data Hi. rewrite lookup_app_l; [done|]. by eapply lookup_lt_Some. }
  unfold create_bc, create_bc_firedrake, create_bc_dolfin.
  destruct (is_firedrake backend), (is_None v), (is_None h); simpl;
    try (repeat split; done);
    unfold firedrake_DirichletBC, dolfin_DirichletBC, dolfin_DirichletBC_copy,
      homogenize, mbind, M_bind, lift, get_bc, alloc_bc;
    destruct (truthy h) as [[|]|e]; simpl;
    try (repeat split; done);
    destruct (bc_store w !! bc) as [data0|] eqn:Hbc; simpl;
    try (repeat split; done);
    try (repeat split; try done; by apply Hkeep).
  all: rewrite lookup_app_r, Nat.sub_diag by lia; simpl.
  all: repeat split; try done.
  all: intros i data Hi; rewrite list_lookup_insert_ne;
    [by apply Hkeep|apply lookup_lt_Some in Hi; lia].
Qed.

(** What the new boundary condition holds.  On an existing [bc], with
    exactly one of [value] and [homogenize] given and a homogenize argument
    of truth value [t], create_bc returns the next free reference; the
    object there has the function space of [bc], and its value is [value]
    when [t] is false and a zero when [t] is true. *)
Theorem create_bc_result (backend : Backend) (bc : nat) (data : DirichletBC)
    (v h : value) (t : bool) (w : World) :
  bc_store w !! bc = Some data →
  is_None v = negb (is_None h) →
  truthy h = Ok t →
  ∃ data' w',
    create_bc backend bc v h w = (Ok (length (bc_store w)), w')
    ∧ bc_store w' !! length (bc_store w) = Some data'
    ∧ length (bc_store w') = S (length (bc_store w))
    ∧ bc_function_space data' = bc_function_space data
    ∧ bc_value data'
      = if t then (if is_firedrake backend then VInt 0 else VFloat 0%float)
        else v.
Proof.
  intros Hbc Hone Htruth.
  assert (Hlast : ∀ d, (bc_store w ++ [d]) !! length (bc_store w) = Some d)
    by (intros d; by rewrite lookup_app_r, Nat.sub_diag by lia).
  unfold create_bc, create_bc_firedrake, create_bc_dolfin.
  rewrite Hone. destruct (is_None h); simpl;
    destruct (is_firedrake backend);
    unfold firedrake_DirichletBC, dolfin_DirichletBC, dolfin_DirichletBC_copy,
      homogenize, mbind, M_bind, lift, get_bc, alloc_bc;
    rewrite Htruth; destruct t; simpl; rewrite Hbc; simpl;
    rewrite ?Hlast; simpl;
    do 2 eexists; (split; [reflexivity|]); simpl;
    rewrite ?length_insert, ?length_app; simpl;
    (split; [first [apply Hlast
                   |apply list_lookup_insert_eq; rewrite length_app; simpl; lia]|]);
    (split; [lia|]); by split.
Qed.

(** ** Further properties: extract_bc_subvector *)


(** extract_bc_subvector only reads: in both branches, whatever it returns
    or raises, the state after the call is the state before. *)
Theorem extract_bc_subvector_read_only (backend : Backend) (value : Function)
    (Vtarget : FunctionSpace) (bc : nat) (w : World) :
  (extract_bc_subvector backend value Vtarget bc w).2 = w.
Proof.
  unfold extract_bc_subvector, extract_bc_subvector_firedrake,
    extract_bc_subvector_dolfin, mbind, M_bind, get_bc, lift.
  destruct (is_firedrake backend), (bc_store w !! bc) as [data|]; try done.
  - destruct (follow value (bc_indices data)) as [r|e]; [|done].
    by destruct (space_eqb Vtarget (function_space r)).
  - destruct (extract_subfunction backend value (bc_function_space data))
      as [r|e]; [|done].
    by destruct (backend_assign backend Vtarget (bc_function_space data) r).
Qed.


(** ** Further properties: assemble_adjoint_value *)

(** In the firedrake branch assemble_adjoint_value never returns a
    function, whatever is assembled: a native result that is a function is
    replaced by its vector, any other native result is returned as it is,
    and the state is the one the native assembly left. *)
Theorem assemble_adjoint_value_firedrake (backend : Backend)
    (args : list value) (kwargs : gmap string value) (w w' : World)
    (r : value) :
  is_firedrake backend = true →
  backend_assemble backend args kwargs w = (Ok r, w') →
  ∃ r', assemble_adjoint_value backend args kwargs w = (Ok r', w')
        ∧ FunctionType backend r' = false
        ∧ r' = match r with VFunction u => VVector (vector u) | _ => r end.
Proof.
  intros Hbranch Hnative. unfold assemble_adjoint_value, FunctionType.
  rewrite Hbranch. unfold mbind, M_bind. rewrite Hnative.
  destruct r; eexists; (split; [reflexivity|]); by split.
Qed.

(** ** Further properties: gather *)

Lemma value_nested_ind (P : value → Prop) :
  (∀ v, match v with VList l => Forall P l | _ => True end → P v) →
  ∀ v, P v.
Proof.
  intros H. fix IH 1. intros v. apply H. destruct v; try exact I.
  revert l. fix IHl 1. intros [|a l]; constructor; [apply IH|apply IHl].
Qed.

Lemma mapM_getitem_seq {A} (pre l : list A) :
  mapM (getitem (pre ++ l)) (seq (length pre) (length l)) = Ok l.
Proof.
  revert pre. induction l as [|a l IH]; intros pre; [done|].
  assert (Hhead : getitem (pre ++ a :: l) (length pre) = Ok a).
  { unfold getitem. by rewrite lookup_app_r, Nat.sub_diag by lia. }
  specialize (IH (pre ++ [a])).
  rewrite <- app_assoc, length_app, Nat.add_1_r in IH.
  change (mapM (getitem (pre ++ a :: l)) (seq (S (length pre)) (length l))
          = Ok l) in IH.
  change (getitem (pre ++ a :: l) (length pre)
          ≫= (λ y, mapM (getitem (pre ++ a :: l))
                     (seq (S (length pre)) (length l))
                   ≫= λ k, mret (y :: k))
          = Ok (a :: l)).
  by rewrite Hhead, IH.
Qed.

Lemma gather_indices_all (x : Vector) :
  gather_indices x (seq 0 (length (vec_values x))) = Ok (vec_values x).
Proof. apply (mapM_getitem_seq [] (vec_values x)). Qed.

Lemma gather_vector_dolfin_values (backend : Backend) (x : Vector) :
  gather_vector_dolfin backend x
  = Ok (if backend_legacy_gather backend
        then VList (VFloat <$> vec_values x)
        else VArray (vec_values x)).
Proof.
  unfold gather_vector_dolfin. rewrite gather_indices_all.
  by destruct (backend_legacy_gather backend).
Qed.

Lemma gathered_fixed (backend : Backend) (v : value) :
  gathered v = true → gather_dolfin backend v = Ok v.
Proof.
  induction v as [v IH] using value_nested_ind. destruct v; try done.
  simpl. intros Hall.
  assert (Hl : mapM (gather_dolfin backend) l = Ok l).
  { induction IH as [|a l Ha _ IHl]; [done|].
    simpl in Hall. apply andb_prop in Hall as [Hhead Htail].
    simpl. by rewrite (Ha Hhead), (IHl Htail). }
  by rewrite Hl.
Qed.

Lemma gather_dolfin_gathered (backend : Backend) (v : value) :
  ∃ y, gather_dolfin backend v = Ok y ∧ gathered y = true.
Proof.
  induction v as [v IH] using value_nested_ind.
  destruct v; try (eexists; split; [reflexivity|done]).
  - assert (Hl : ∃ ys, mapM (gather_dolfin backend) l = Ok ys
                       ∧ forallb gathered ys = true).
    { induction IH as [|a l (y & Hy & Hgy) _ (ys & Hys & Hgys)].
      - by exists [].
      - exists (y :: ys). simpl. rewrite Hy, Hys. simpl.
        by rewrite Hgy, Hgys. }
    destruct Hl as (ys & Hys & Hgys). exists (VList ys). simpl.
    by rewrite Hys.
  - simpl. rewrite gather_vector_dolfin_values. eexists. split; [done|].
    destruct (backend_legacy_gather backend); [|done].
    simpl. by induction (vec_values x).
  - simpl. rewrite gather_vector_dolfin_values. eexists. split; [done|].
    destruct (backend_legacy_gather backend); [|done].
    simpl. by induction (vec_values (vector u)).
Qed.

(** In the dolfin branch gather of a vector returns every one of its
    values, in order: as a list of floats where the two-argument call is
    accepted, as an array where that call raises [TypeError] and the
    one-argument call is made instead.  A function is gathered as its
    vector. *)
Theorem gather_dolfin_vector (backend : Backend) (x : Vector) (u : Function) :
  is_firedrake backend = false →
  gather backend (VVector x)
  = Ok (if backend_legacy_gather backend
        then VList (VFloat <$> vec_values x)
        else VArray (vec_values x))
  ∧ gather backend (VFunction u) = gather backend (VVector (vector u)).
Proof.
  intros Hbranch. unfold gather. rewrite Hbranch. simpl.
  by rewrite gather_vector_dolfin_values.
Qed.

(** In the dolfin branch gather never raises, its result holds no vector
    and no function at any depth, and gathering the result again returns
    it unchanged: gather is idempotent on every input, not only on plain
    arrays. *)
Theorem gather_dolfin_idempotent (backend : Backend) (v : value) :
  is_firedrake backend = false →
  ∃ y, gather backend v = Ok y
       ∧ gathered y = true
       ∧ gather backend y = Ok y.
Proof.
  intros Hbranch. unfold gather. rewrite Hbranch.
  destruct (gather_dolfin_gathered backend v) as (y & Hy & Hgy).
  exists y. split; [done|]. split; [done|]. by apply gathered_fixed.
Qed.

(** ** Further properties: project *)

(** An option handed to the solve record comes from the options given. *)
Lemma pop_kwargs_lookup (blocks : BlockLib) (kwargs : gmap string value)
    (k : string) (x : value) :
  (pop_kwargs blocks kwargs).1 !! k = Some x → kwargs !! k = Some x.
Proof.
  unfold pop_kwargs.
  assert (Hgen : ∀ keys (popped rest : gmap string value),
             (∀ k x, popped !! k = Some x → kwargs !! k = Some x) →
             (∀ k x, rest !! k = Some x → kwargs !! k = Some x) →
             ∀ k x,
               (foldl (λ '(popped, kwargs) k,
                         match kwargs !! k with
                         | Some v => (<[k := v]> popped, delete k kwargs)
                         | None => (popped, kwargs)
                         end) (popped, rest) keys).1 !! k = Some x →
               kwargs !! k = Some x).
  { induction keys as [|key keys IH]; intros popped rest Hpopped Hrest k' x'.
    - simpl. apply Hpopped.
    - simpl. destruct (rest !! key) as [v|] eqn:Hkey.
      + apply IH.
        * intros k0 x0. destruct (decide (key = k0)) as [<-|Hne].
          -- rewrite lookup_insert_eq. intros [= <-]. by apply Hrest.
          -- rewrite lookup_insert_ne by done. apply Hpopped.
        * intros k0 x0 Hk0. apply Hrest.
          destruct (decide (key = k0)) as [<-|Hne].
          -- by rewrite lookup_delete_eq in Hk0.
          -- by rewrite lookup_delete_ne in Hk0.
      + by apply IH. }
  apply Hgen; [|done]. intros k0 x0. by rewrite lookup_empty.
Qed.

Section ProjectMore.

Context (backend : Backend) (blocks : BlockLib).

(** A call with recording enabled and fewer than two positional arguments
    raises [IndexError], and it does so after the native projection has
    run and its result has been wrapped: the wrapper is in the store, and
    nothing is added to the tape the native call left. *)
Theorem project_too_few_arguments args kwargs w raw w1 :
  annotation_enabled w = true →
  truthy (default (VBool true) (kwargs !! "annotate")) = Ok true →
  length args < 2 →
  backend_project backend args (delete "annotate" kwargs)
    (set_annotation_enabled false w) = (Ok raw, w1) →
  project backend blocks args kwargs w
  = (Raise IndexError,
     set_overloaded_store (overloaded_store w1 ++ [raw])
       (set_annotation_enabled true w1)).
Proof.
  intros Hon Hannotate Hlen Hnative.
  rewrite (project_native_ok _ _ _ _ _ _ _ Hnative), Hon.
  unfold mbind at 1, M_bind, lift at 1. rewrite Hannotate. simpl.
  destruct (pop_kwargs blocks (delete "bcs" (delete "annotate" kwargs)))
    as [sb_kwargs kwargs'].
  destruct args as [|v [|V rest]]; [done|done|simpl in Hlen; lia].
Qed.

(** On every way out of [project] (a return, an error of the native
    projection, an error raised afterwards) the annotation flag is what it
    was before the call. *)
Theorem project_keeps_annotation_flag args kwargs w :
  annotation_enabled (project backend blocks args kwargs w).2
  = annotation_enabled w.
Proof.
  destruct (backend_project backend args (delete "annotate" kwargs)
              (set_annotation_enabled false w)) as [[raw|e] w1] eqn:Hnative.
  - rewrite (project_native_ok _ _ _ _ _ _ _ Hnative).
    unfold mbind at 1, M_bind, lift at 1.
    destruct (truthy _) as [[|]|e]; [|done|done].
    cbv zeta.
    destruct (pop_kwargs blocks (delete "bcs" (delete "annotate" kwargs)))
      as [sb_kwargs kwargs'].
    unfold mbind, M_bind, lift, getitem, ProjectBlock, add_block, add_output.
    destruct args as [|v [|V rest]]; [done|done|]. simpl.
    destruct (ProjectBlock_check blocks v V _ sb_kwargs); [done|]. simpl.
    by destruct (_ !! _).
  - by rewrite (project_native_raise _ _ _ _ _ _ _ Hnative).
Qed.

(** What the recorded block refers to: the first positional argument as
    source, the second as destination, the returned wrapper as result, and
    as boundary conditions the [bcs] option, the empty list when the option
    is absent.  Each option kept on the block was given to the call, and
    neither [annotate] nor [bcs] is among them. *)
Theorem project_block_contents args kwargs w v V rest raw w1 :
  annotation_enabled w = true →
  truthy (default (VBool true) (kwargs !! "annotate")) = Ok true →
  args = v :: V :: rest →
  backend_project backend args (delete "annotate" kwargs)
    (set_annotation_enabled false w) = (Ok raw, w1) →
  ProjectBlock_check blocks v V
    (default (VList []) (delete "annotate" kwargs !! "bcs"))
    (pop_kwargs blocks (delete "bcs" (delete "annotate" kwargs))).1 = None →
  ∃ output block b w',
    project backend blocks args kwargs w = (Ok output, w')
    ∧ last (working_tape w') = Some block
    ∧ block_store w' !! block = Some b
    ∧ block_source b = v
    ∧ block_target b = V
    ∧ block_result b = output
    ∧ block_bcs b = default (VList []) (kwargs !! "bcs")
    ∧ (∀ k x, block_kwargs b !! k = Some x → kwargs !! k = Some x)
    ∧ block_kwargs b !! "annotate" = None
    ∧ block_kwargs b !! "bcs" = None.
Proof.
  intros Hon Hannotate -> Hnative Hcheck.
  rewrite (project_native_ok _ _ _ _ _ _ _ Hnative), Hon.
  unfold mbind at 1, M_bind, lift at 1. rewrite Hannotate. simpl.
  pose proof (pop_kwargs_lookup blocks (delete "bcs" (delete "annotate" kwargs)))
    as Hpopped.
  destruct (pop_kwargs blocks (delete "bcs" (delete "annotate" kwargs)))
    as [sb_kwargs kwargs'] eqn:Hpop. simpl in Hcheck, Hpopped.
  unfold mbind, M_bind, lift, getitem, ProjectBlock, add_block, add_output, mret, M_ret.
  simpl. rewrite Hcheck. simpl.
  rewrite lookup_app_r, Nat.sub_diag by lia. simpl.
  do 3 eexists. eexists. split; [reflexivity|]. simpl.
  split; [apply last_snoc|].
  split; [apply list_lookup_insert_eq; rewrite length_app; simpl; lia|].
  simpl. repeat split.
  - by rewrite lookup_delete_ne.
  - intros k x Hk. apply Hpopped in Hk.
    destruct (decide (k = "bcs")) as [->|Hbcs];
      [by rewrite lookup_delete_eq in Hk|].
    rewrite lookup_delete_ne in Hk by done.
    destruct (decide (k = "annotate")) as [->|Hann];
      [by rewrite lookup_delete_eq in Hk|].
    by rewrite lookup_delete_ne in Hk.
  - destruct (sb_kwargs !! "annotate") as [x|] eqn:Hk; [|done].
    apply Hpopped in Hk. rewrite lookup_delete_ne in Hk by done.
    by rewrite lookup_delete_eq in Hk.
  - destruct (sb_kwargs !! "bcs") as [x|] eqn:Hk; [|done].
    apply Hpopped in Hk. by rewrite lookup_delete_eq in Hk.
Qed.

(** Whatever the call and however it ends, [project] adds at most one
    reference at the end of the working tape and never changes or removes
    a block that existed, provided the backend records nothing while
    annotation is suspended. *)
Theorem project_tape_grows_by_at_most_one args kwargs w :
  records_only_when_enabled backend →
  ∃ suffix,
    working_tape (project backend blocks args kwargs w).2
    = working_tape w ++ suffix
    ∧ length suffix ≤ 1
    ∧ ∀ i b, block_store w !! i = Some b →
             block_store (project backend blocks args kwargs w).2 !! i = Some b.
Proof.
  intros Hquiet.
  destruct (Hquiet args (delete "annotate" kwargs)
              (set_annotation_enabled false w) eq_refl) as [Htape Hstore].
  assert (Hnone : ∀ w', working_tape w' = working_tape w →
                        block_store w' = block_store w →
                        ∃ suffix, working_tape w' = working_tape w ++ suffix
                                  ∧ length suffix ≤ 1
                                  ∧ ∀ i b, block_store w !! i = Some b →
                                           block_store w' !! i = Some b).
  { intros w' Ht Hs. exists []. rewrite app_nil_r, Hs. simpl.
    split; [done|]. split; [lia|done]. }
  destruct (backend_project backend args (delete "annotate" kwargs)
              (set_annotation_enabled false w)) as [[raw|e] w1] eqn:Hnative;
    simpl in Htape, Hstore.
  - rewrite (project_native_ok _ _ _ _ _ _ _ Hnative).
    unfold mbind at 1, M_bind, lift at 1.
    destruct (truthy _) as [[|]|e]; [|by apply Hnone..].
    cbv zeta.
    destruct (pop_kwargs blocks (delete "bcs" (delete "annotate" kwargs)))
      as [sb_kwargs kwargs'].
    unfold mbind, M_bind, lift, getitem, ProjectBlock, add_block, add_output.
    destruct args as [|v [|V rest]]; [by apply Hnone..|]. simpl.
    destruct (ProjectBlock_check blocks v V _ sb_kwargs); [by apply Hnone|].
    simpl. rewrite lookup_app_r, Nat.sub_diag by lia. simpl.
    exists [length (block_store w1)]. rewrite Htape, Hstore.
    split; [done|]. split; [simpl; lia|].
    intros i b Hi. pose proof (lookup_lt_Some _ _ _ Hi).
    rewrite list_lookup_insert_ne by lia. by rewrite lookup_app_l.
  - rewrite (project_native_raise _ _ _ _ _ _ _ Hnative). by apply Hnone.
Qed.

End ProjectMore.

(** ** The further properties at concrete calls *)

Lemma extract_subfunction_dolfin_compose_witness :
  extract_subfunction Demo.dolfin Demo2.g Demo2.V_inner
  = extract_subfunction Demo.dolfin Demo2.g Demo2.V_second
    ≫= λ r, extract_subfunction Demo.dolfin r (mkFunctionSpace 14 None None [2]).
Proof.
  apply (extract_subfunction_dolfin_compose Demo.dolfin Demo2.g Demo2.V_inner
           Demo2.V_second (mkFunctionSpace 14 None None [2])); reflexivity.
Defined.

Lemma extract_subfunction_firedrake_one_level_witness :
  extract_subfunction Demo.firedrake Demo2.g Demo2.V_first
  = if decide (0 = 0) then Ok Demo2.g else sub Demo2.g 0.
Proof.
  apply (extract_subfunction_firedrake_one_level Demo.firedrake Demo2.g
           Demo2.V_first Demo2.V_mixed 0); reflexivity.
Defined.

Lemma extract_subfunction_firedrake_path_witness :
  extract_subfunction Demo.firedrake Demo2.g Demo2.V_inner
  = follow Demo2.g (truthy_indices Demo2.V_inner).
Proof.
  apply (extract_subfunction_firedrake_path Demo.firedrake Demo2.V_inner
           Demo2.g); reflexivity.
Defined.

Lemma create_bc_result_witness :
  ∃ data' w',
    create_bc Demo2.dolfin_new 1 VNone (VInt 1) Demo2.w1
    = (Ok (length (bc_store Demo2.w1)), w')
    ∧ bc_store w' !! length (bc_store Demo2.w1) = Some data'
    ∧ length (bc_store w') = S (length (bc_store Demo2.w1))
    ∧ bc_function_space data' = bc_function_space Demo2.bc_first
    ∧ bc_value data'
      = if true then (if is_firedrake Demo2.dolfin_new then VInt 0
                      else VFloat 0%float)
        else VNone.
Proof.
  apply (create_bc_result Demo2.dolfin_new 1 Demo2.bc_first VNone (VInt 1) true
           Demo2.w1); reflexivity.
Defined.


Lemma assemble_adjoint_value_firedrake_witness :
  ∃ r', assemble_adjoint_value Demo.firedrake [VForm 2 5] ∅ Demo.w0
        = (Ok r', Demo.w0)
        ∧ FunctionType Demo.firedrake r' = false
        ∧ r' = VMatrix 5.
Proof.
  apply (assemble_adjoint_value_firedrake Demo.firedrake [VForm 2 5] ∅ Demo.w0
           Demo.w0 (VMatrix 5)); reflexivity.
Defined.

Lemma gather_dolfin_vector_witness :
  gather Demo2.dolfin_new (VVector Demo.x1)
  = Ok (if backend_legacy_gather Demo2.dolfin_new
        then VList (VFloat <$> vec_values Demo.x1)
        else VArray (vec_values Demo.x1))
  ∧ gather Demo2.dolfin_new (VFunction Demo2.g)
    = gather Demo2.dolfin_new (VVector (vector Demo2.g)).
Proof.
  apply (gather_dolfin_vector Demo2.dolfin_new Demo.x1 Demo2.g). reflexivity.
Defined.

Lemma gather_dolfin_idempotent_witness :
  ∃ y, gather Demo.dolfin
         (VList [VFunction Demo2.g; VList [VVector Demo.x1; VArray [1%float]]])
       = Ok y
       ∧ gathered y = true
       ∧ gather Demo.dolfin y = Ok y.
Proof.
  apply (gather_dolfin_idempotent Demo.dolfin
           (VList [VFunction Demo2.g; VList [VVector Demo.x1; VArray [1%float]]])).
  reflexivity.
Defined.

Lemma project_too_few_arguments_witness :
  project Demo.dolfin Demo.blocks [VFunction Demo.u] Demo.kwargs0 Demo.w0
  = (Raise IndexError,
     set_overloaded_store (overloaded_store Demo.w0 ++ [VFunction Demo.u])
       (set_annotation_enabled true Demo.w0)).
Proof.
  apply (project_too_few_arguments Demo.dolfin Demo.blocks [VFunction Demo.u]
           Demo.kwargs0 Demo.w0 (VFunction Demo.u)
           (set_annotation_enabled false Demo.w0)).
  - reflexivity.
  - reflexivity.
  - simpl. lia.
  - reflexivity.
Defined.

Lemma project_block_contents_witness :
  ∃ output block b w',
    project Demo.firedrake Demo.blocks Demo.args0 Demo.kwargs0 Demo.w0
    = (Ok output, w')
    ∧ last (working_tape w') = Some block
    ∧ block_store w' !! block = Some b
    ∧ block_source b = VFunction Demo.u
    ∧ block_target b = VFunctionSpace Demo.V_root
    ∧ block_result b = output
    ∧ block_bcs b = default (VList []) (Demo.kwargs0 !! "bcs")
    ∧ (∀ k x, block_kwargs b !! k = Some x → Demo.kwargs0 !! k = Some x)
    ∧ block_kwargs b !! "annotate" = None
    ∧ block_kwargs b !! "bcs" = None.
Proof.
  eapply (project_block_contents Demo.firedrake Demo.blocks Demo.args0
            Demo.kwargs0 Demo.w0).
  - reflexivity.
  - reflexivity.
  - reflexivity.
  - reflexivity.
  - reflexivity.
Defined.

Lemma project_tape_grows_by_at_most_one_witness :
  ∃ suffix,
    working_tape
      (project Demo.firedrake Demo.blocks Demo.args0 Demo.kwargs0 Demo.w0).2
    = working_tape Demo.w0 ++ suffix
    ∧ length suffix ≤ 1
    ∧ ∀ i b, block_store Demo.w0 !! i = Some b →
             block_store
               (project Demo.firedrake Demo.blocks Demo.args0 Demo.kwargs0
                  Demo.w0).2 !! i = Some b.
Proof.
  apply (project_tape_grows_by_at_most_one Demo.firedrake Demo.blocks
           Demo.args0 Demo.kwargs0 Demo.w0).
  by apply demo_records_only_when_enabled.
Defined.
